(** * Verification of the generated Windows plugin registrant

    Source: [frontend/app/windows/flutter/generated_plugin_registrant.cc].

    The translation unit consists of six [#include] lines and one function,
    [RegisterPlugins], which talks to code it does not own: the virtual
    member [GetRegistrarForPlugin] of the registry it is handed, and one
    [*RegisterWithRegistrar] routine per plugin.  The function is embedded
    as an interaction tree whose visible events are exactly those external
    calls; a host (an arbitrary, possibly failing, state-transforming
    handler) gives them meaning, and a fuelled interpreter records the
    calls a run performs, what the call sites build, and whose failure a
    failed run is. *)

From Stdlib Require Import String Ascii List ZArith Lia Bool.
From ITree Require Import ITree Events.State Events.Exception.
Import ListNotations.
Import ITreeNotations.
Local Open Scope string_scope.
Local Open Scope list_scope.
Local Open Scope itree_scope.

Set Implicit Arguments.

(** ** Data of the translation unit *)

(** [flutter::PluginRegistry*]: an address, [0] being [nullptr]. *)
Definition PluginRegistryPtr : Type := Z.
Definition nullptr : PluginRegistryPtr := 0%Z.

(** One [#include <package/header>] line. *)
Record include_line : Type := Include { package : string; header : string }.

(** Lines 9-14 of the source, in order. *)
Definition plugin_includes : list include_line :=
  [ Include "battery_plus" "battery_plus_windows_plugin.h";
    Include "connectivity_plus" "connectivity_plus_windows_plugin.h";
    Include "firebase_core" "firebase_core_plugin_c_api.h";
    Include "flutter_secure_storage_windows" "flutter_secure_storage_windows_plugin.h";
    Include "flutter_webrtc" "flutter_web_r_t_c_plugin.h";
    Include "permission_handler_windows" "permission_handler_windows_plugin.h" ].

(** Header naming used by the include lines: the plugin class name with
    every capital lowered and, except the first, preceded by an underscore. *)
Definition is_upper (c : ascii) : bool :=
  let n := nat_of_ascii c in (65 <=? n)%nat && (n <=? 90)%nat.

Definition to_lower (c : ascii) : ascii :=
  if is_upper c then ascii_of_nat (nat_of_ascii c + 32) else c.

Fixpoint snake_tail (s : string) : string :=
  match s with
  | EmptyString => EmptyString
  | String c s' =>
      if is_upper c then String "_" (String (to_lower c) (snake_tail s'))
      else String c (snake_tail s')
  end.

Definition snake_case (s : string) : string :=
  match s with
  | EmptyString => EmptyString
  | String c s' => String (to_lower c) (snake_tail s')
  end.

Definition header_of_class (plugin_name : string) : string :=
  snake_case plugin_name ++ ".h".

(** ** Events *)

Section Registrant.

(** [FlutterDesktopPluginRegistrarRef], the handle type returned by the
    registry; its declaration lives in the framework headers, so it is
    kept abstract. *)
Variable registrar : Type.

(** State the function could own (locals, statics); kept abstract. *)
Variable own : Type.

(** State of everything outside the translation unit. *)
Variable world : Type.

(** Calls that leave the translation unit. *)
Variant hostE : Type -> Type :=
| MemberGetRegistrarForPlugin (receiver : PluginRegistryPtr) (plugin_name : string)
  : hostE registrar
| ExternRegisterWithRegistrar (symbol : string) (arg : registrar)
  : hostE unit.

(** Everything a function body of this translation unit can do: call out,
    raise an error of its own, read or write memory itself, be it state of
    its own or, since it runs in the same address space, the outside
    state. *)
Definition unitE : Type -> Type :=
  hostE +' exceptE string +' stateE (world * own).

Definition extern {X : Type} (e : hostE X) : itree unitE X :=
  ITree.trigger (inl1 e).

(** ** The program *)

(** [registry->GetRegistrarForPlugin(name)]: one node for the whole call
    expression.  The member is declared by the framework with a
    [const std::string&] parameter, so evaluating the expression builds a
    string object from the literal at the call site, goes through
    [registry], and only then enters the registry's function; [run_from]
    below gives each of these its effect. *)
Definition GetRegistrarForPlugin (registry : PluginRegistryPtr) (plugin_name : string)
  : itree unitE registrar :=
  extern (MemberGetRegistrarForPlugin registry plugin_name).

(** The six entry points declared by the plugin headers. *)
Definition BatteryPlusWindowsPluginRegisterWithRegistrar (r : registrar) : itree unitE unit :=
  extern (ExternRegisterWithRegistrar "BatteryPlusWindowsPluginRegisterWithRegistrar" r).
Definition ConnectivityPlusWindowsPluginRegisterWithRegistrar (r : registrar) : itree unitE unit :=
  extern (ExternRegisterWithRegistrar "ConnectivityPlusWindowsPluginRegisterWithRegistrar" r).
Definition FirebaseCorePluginCApiRegisterWithRegistrar (r : registrar) : itree unitE unit :=
  extern (ExternRegisterWithRegistrar "FirebaseCorePluginCApiRegisterWithRegistrar" r).
Definition FlutterSecureStorageWindowsPluginRegisterWithRegistrar (r : registrar) : itree unitE unit :=
  extern (ExternRegisterWithRegistrar "FlutterSecureStorageWindowsPluginRegisterWithRegistrar" r).
Definition FlutterWebRTCPluginRegisterWithRegistrar (r : registrar) : itree unitE unit :=
  extern (ExternRegisterWithRegistrar "FlutterWebRTCPluginRegisterWithRegistrar" r).
Definition PermissionHandlerWindowsPluginRegisterWithRegistrar (r : registrar) : itree unitE unit :=
  extern (ExternRegisterWithRegistrar "PermissionHandlerWindowsPluginRegisterWithRegistrar" r).

(** [void RegisterPlugins(flutter::PluginRegistry* registry)], lines 16-29.
    In [f(registry->GetRegistrarForPlugin(s));] the argument is evaluated
    before [f] is entered, and statements run in textual order. *)
Definition RegisterPlugins (registry : PluginRegistryPtr) : itree unitE unit :=
  r <- GetRegistrarForPlugin registry "BatteryPlusWindowsPlugin";;
  BatteryPlusWindowsPluginRegisterWithRegistrar r;;
  r <- GetRegistrarForPlugin registry "ConnectivityPlusWindowsPlugin";;
  ConnectivityPlusWindowsPluginRegisterWithRegistrar r;;
  r <- GetRegistrarForPlugin registry "FirebaseCorePluginCApi";;
  FirebaseCorePluginCApiRegisterWithRegistrar r;;
  r <- GetRegistrarForPlugin registry "FlutterSecureStorageWindowsPlugin";;
  FlutterSecureStorageWindowsPluginRegisterWithRegistrar r;;
  r <- GetRegistrarForPlugin registry "FlutterWebRTCPlugin";;
  FlutterWebRTCPluginRegisterWithRegistrar r;;
  r <- GetRegistrarForPlugin registry "PermissionHandlerWindowsPlugin";;
  PermissionHandlerWindowsPluginRegisterWithRegistrar r.

(** ** Hosts and runs *)

(** What the platform makes of a call expression: the callee is entered
    and returns a value in a new outside state; or the call does not
    return normally (exception, crash); or the expression fails at the
    call site before the callee is entered (an argument cannot be built
    for lack of memory, the receiver cannot be dereferenced). *)
Variant outcome (X : Type) : Type :=
| Returns (x : X) (w : world)
| Raises
| NotEntered.
Arguments Raises {X}.
Arguments NotEntered {X}.

Definition host : Type := forall X : Type, hostE X -> world -> outcome X.

(** An evaluated call expression, as an observer of the run sees it: for
    a lookup, the handle it returned, if it returned; for a registration,
    whether it returned. *)
Variant call : Type :=
| Lookup (receiver : PluginRegistryPtr) (plugin_name : string) (ret : option registrar)
| Registration (symbol : string) (arg : registrar) (returned : bool).

Definition record {X : Type} (e : hostE X) : option X -> call :=
  match e in hostE X return option X -> call with
  | MemberGetRegistrarForPlugin p s => fun r => Lookup p s r
  | ExternRegisterWithRegistrar f a =>
      fun r => Registration f a (match r with Some _ => true | None => false end)
  end.

Variant blame : Type := ByHost | BySelf.

(** How a run ends.  A run that returns reports the outside state, the
    function's own state, and the name arguments it built on the way. *)
Variant result : Type :=
| Done (w : world) (s : own) (built : list string)
| Failed (b : blame)
| OutOfFuel.

(** A member call whose receiver is null: no function of the registry is
    ever entered through it. *)
Definition through_null {X : Type} (e : hostE X) : bool :=
  match e with
  | MemberGetRegistrarForPlugin p _ => Z.eqb p nullptr
  | ExternRegisterWithRegistrar _ _ => false
  end.

(** What evaluating a call expression builds at the call site: for a
    lookup, the string object holding a copy of the name literal. *)
Definition call_site {X : Type} (e : hostE X) (built : list string) : list string :=
  match e with
  | MemberGetRegistrarForPlugin _ name => built ++ [name]
  | ExternRegisterWithRegistrar _ _ => built
  end.

(** One run of a function body: the call expressions evaluated, then how
    it ended.  A call that fails before its callee is entered, or through
    a null receiver, is a failure of the calling function itself. *)
Fixpoint run_from (fuel : nat) (h : host) (t : itree unitE unit)
    (w : world) (s : own) (built : list string) : list call * result :=
  match fuel with
  | O => ([], OutOfFuel)
  | S fuel' =>
      match observe t with
      | RetF _ => ([], Done w s built)
      | TauF t' => run_from fuel' h t' w s built
      | VisF e k =>
          match e with
          | inl1 c =>
              match h _ c w with
              | Returns x w' =>
                  let (tr, res) :=
                    run_from fuel' h (k x) w' s (call_site c built) in
                  (record c (Some x) :: tr, res)
              | Raises =>
                  ([record c None],
                   Failed (if through_null c then BySelf else ByHost))
              | NotEntered => ([record c None], Failed BySelf)
              end
          | inr1 (inl1 _) => ([], Failed BySelf)
          | inr1 (inr1 st) =>
              match st in stateE _ X
                    return (X -> itree unitE unit) -> list call * result with
              | Get _ => fun k => run_from fuel' h (k (w, s)) w s built
              | Put _ ws => fun k => run_from fuel' h (k tt) (fst ws) (snd ws) built
              end k
          end
      end
  end.

(** A run from the start of the function: nothing built yet. *)
Definition run (fuel : nat) (h : host) (t : itree unitE unit) (w : world) (s : own)
  : list call * result :=
  run_from fuel h t w s [].

(** ** Observations on runs *)

Definition completed (res : result) : bool :=
  match res with Done _ _ _ => true | _ => false end.

Definition returned (c : call) : bool :=
  match c with
  | Lookup _ _ (Some _) => true
  | Lookup _ _ None => false
  | Registration _ _ b => b
  end.

(** Names handed to [GetRegistrarForPlugin], in call order. *)
Fixpoint looked_up (tr : list call) : list string :=
  match tr with
  | [] => []
  | Lookup _ name _ :: tr' => name :: looked_up tr'
  | Registration _ _ _ :: tr' => looked_up tr'
  end.

(** Entry points entered, in call order. *)
Fixpoint entered (tr : list call) : list string :=
  match tr with
  | [] => []
  | Lookup _ _ _ :: tr' => entered tr'
  | Registration symbol _ _ :: tr' => symbol :: entered tr'
  end.

(** Arguments with which the entry point [symbol] was entered. *)
Fixpoint registered_with (symbol : string) (tr : list call) : list registrar :=
  match tr with
  | [] => []
  | Lookup _ _ _ :: tr' => registered_with symbol tr'
  | Registration f arg _ :: tr' =>
      if String.eqb f symbol then arg :: registered_with symbol tr'
      else registered_with symbol tr'
  end.

(** A call with its data erased: which lookup, or which entry point. *)
Variant call_shape : Type :=
| LookupOf (plugin_name : string)
| EntryOf (symbol : string).

Definition shape (c : call) : call_shape :=
  match c with
  | Lookup _ name _ => LookupOf name
  | Registration symbol _ _ => EntryOf symbol
  end.

(** ** Shape of a function body *)

(** Bodies made of external calls only: every path is finite, and no node
    raises or reads or writes memory itself. *)
Inductive host_only : itree unitE unit -> Prop :=
| host_only_ret t r :
    observe t = RetF r -> host_only t
| host_only_call t X (c : hostE X) k :
    observe t = VisF (inl1 c) k ->
    (forall x : X, host_only (k x)) ->
    host_only t.

(** ** The registrant as the specification words it *)

(** The symbol the generator derives from a plugin class name. *)
Definition entry_symbol (plugin_name : string) : string :=
  plugin_name ++ "RegisterWithRegistrar".

(** The statically known plugins, by class name (lines 18-28). *)
Definition plugin_class_names : list string :=
  [ "BatteryPlusWindowsPlugin";
    "ConnectivityPlusWindowsPlugin";
    "FirebaseCorePluginCApi";
    "FlutterSecureStorageWindowsPlugin";
    "FlutterWebRTCPlugin";
    "PermissionHandlerWindowsPlugin" ].

(** "For each statically known plugin, obtain a scoped registrar handle
    from the supplied registry and invoke that plugin's own registration
    routine": the specification's reading of [RegisterPlugins], as a loop
    over a table, run directly against a host.  It is compared with the
    run of the source's straight-line body below. *)
Fixpoint register_each_plugin (h : host) (registry : PluginRegistryPtr)
    (names : list string) (w : world) (s : own) (built : list string)
  : list call * result :=
  match names with
  | [] => ([], Done w s built)
  | name :: rest =>
      match h _ (MemberGetRegistrarForPlugin registry name) w with
      | Raises =>
          ([Lookup registry name None],
           Failed (if Z.eqb registry nullptr then BySelf else ByHost))
      | NotEntered => ([Lookup registry name None], Failed BySelf)
      | Returns r w1 =>
          match h _ (ExternRegisterWithRegistrar (entry_symbol name) r) w1 with
          | Raises =>
              ([Lookup registry name (Some r);
                Registration (entry_symbol name) r false], Failed ByHost)
          | NotEntered =>
              ([Lookup registry name (Some r);
                Registration (entry_symbol name) r false], Failed BySelf)
          | Returns _ w2 =>
              let (tr, res) :=
                register_each_plugin h registry rest w2 s (built ++ [name]) in
              (Lookup registry name (Some r)
                 :: Registration (entry_symbol name) r true :: tr, res)
          end
      end
  end.

(** The traces such a loop can leave: whole pairs, possibly cut short by a
    call that did not return. *)
Inductive registration_trace (registry : PluginRegistryPtr)
  : list string -> list call -> bool -> Prop :=
| rt_done :
    registration_trace registry [] [] true
| rt_lookup_raised name rest :
    registration_trace registry (name :: rest) [Lookup registry name None] false
| rt_register_raised name rest r :
    registration_trace registry (name :: rest)
      [Lookup registry name (Some r); Registration (entry_symbol name) r false] false
| rt_registered name rest r tr b :
    registration_trace registry rest tr b ->
    registration_trace registry (name :: rest)
      (Lookup registry name (Some r) :: Registration (entry_symbol name) r true :: tr) b.

(** Assumptions on hosts used by some statements. *)
Definition enters_every_call (h : host) : Prop :=
  forall (X : Type) (e : hostE X) (w : world), h X e w <> NotEntered.

Definition faults_on_null (h : host) : Prop :=
  forall (name : string) (w : world),
    h _ (MemberGetRegistrarForPlugin nullptr name) w = Raises.


End Registrant.

Arguments MemberGetRegistrarForPlugin {registrar} receiver plugin_name.
Arguments ExternRegisterWithRegistrar {registrar} symbol arg.
Arguments Returns {world X} x w.
Arguments Raises {world X}.
Arguments NotEntered {world X}.
Arguments Lookup {registrar} receiver plugin_name ret.
Arguments Registration {registrar} symbol arg returned.
Arguments Done {own world} w s built.
Arguments Failed {own world} b.
Arguments OutOfFuel {own world}.
Arguments RegisterPlugins {registrar own world} registry.
Arguments GetRegistrarForPlugin {registrar own world} registry plugin_name.
Arguments extern {registrar own world X} e.
Arguments host_only {registrar own world} t.
Arguments completed {own world} res.

(** ** Concrete hosts, for evaluation *)

(** Outside state of the sample hosts: the number of external calls
    served so far, and a cell that neither the registry nor any plugin
    routine touches. *)
Definition sample_world : Type := (nat * nat)%type.

Definition served (w : sample_world) : sample_world := (S (fst w), snd w).

(** A host whose registry hands out a handle per name; a call through a
    null registry faults. *)
Definition counting_host : host Z sample_world :=
  fun X e w =>
    match e in hostE _ X return outcome sample_world X with
    | MemberGetRegistrarForPlugin p name =>
        if Z.eqb p nullptr then Raises
        else Returns (p + Z.of_nat (String.length name))%Z (served w)
    | ExternRegisterWithRegistrar f a => Returns tt (served w)
    end.

(** A host whose registry answers every lookup with the same handle. *)
Definition constant_host : host Z sample_world :=
  fun X e w =>
    match e in hostE _ X return outcome sample_world X with
    | MemberGetRegistrarForPlugin p name => Returns 42%Z (served w)
    | ExternRegisterWithRegistrar f a => Returns tt (served w)
    end.

(** The first host with a media plugin whose registration throws. *)
Definition webrtc_throws_host : host Z sample_world :=
  fun X e w =>
    match e in hostE _ X return outcome sample_world X with
    | MemberGetRegistrarForPlugin p name =>
        if Z.eqb p nullptr then Raises
        else Returns (p + Z.of_nat (String.length name))%Z (served w)
    | ExternRegisterWithRegistrar f a =>
        if String.eqb f "FlutterWebRTCPluginRegisterWithRegistrar" then Raises
        else Returns tt (served w)
    end.

Definition sample_run : list (call Z) * result unit sample_world :=
  run 13 counting_host (RegisterPlugins 7%Z) (0, 5) tt.

Definition constant_run : list (call Z) * result unit sample_world :=
  run 20 constant_host (RegisterPlugins 1000%Z) (3, 9) tt.

Definition throwing_run : list (call Z) * result unit sample_world :=
  run 13 webrtc_throws_host (RegisterPlugins 7%Z) (0, 5) tt.

Definition null_run : list (call Z) * result unit sample_world :=
  run 13 counting_host (RegisterPlugins nullptr) (0, 5) tt.

(** The call shapes of a full pass over a table of plugins. *)
Definition script (names : list string) : list call_shape :=
  flat_map (fun name => [LookupOf name; EntryOf (entry_symbol name)]) names.

(** The calls of lines 17-28, in textual order. *)
Definition source_order : list call_shape :=
  [ LookupOf "BatteryPlusWindowsPlugin";
    EntryOf "BatteryPlusWindowsPluginRegisterWithRegistrar";
    LookupOf "ConnectivityPlusWindowsPlugin";
    EntryOf "ConnectivityPlusWindowsPluginRegisterWithRegistrar";
    LookupOf "FirebaseCorePluginCApi";
    EntryOf "FirebaseCorePluginCApiRegisterWithRegistrar";
    LookupOf "FlutterSecureStorageWindowsPlugin";
    EntryOf "FlutterSecureStorageWindowsPluginRegisterWithRegistrar";
    LookupOf "FlutterWebRTCPlugin";
    EntryOf "FlutterWebRTCPluginRegisterWithRegistrar";
    LookupOf "PermissionHandlerWindowsPlugin";
    EntryOf "PermissionHandlerWindowsPluginRegisterWithRegistrar" ].

Definition is_prefix {A : Type} (l1 l2 : list A) : Prop :=
  exists rest, l2 = l1 ++ rest.

(** Entry points whose call returned, in call order. *)
Fixpoint registered_entries {registrar : Type} (tr : list (call registrar))
  : list string :=
  match tr with
  | [] => []
  | Registration symbol _ true :: tr' => symbol :: registered_entries tr'
  | _ :: tr' => registered_entries tr'
  end.

(** Two calls of the registrant in a row, against the first sample host. *)
Definition twice_run : list (call Z) * result unit sample_world :=
  run 25 counting_host
    (RegisterPlugins 7%Z;; RegisterPlugins 7%Z) (0, 5) tt.

Section Properties.

Variables registrar own world : Type.
Implicit Types (h : host registrar world) (registry : PluginRegistryPtr)
  (w : world) (s : own) (tr : list (call registrar)) (res : result own world).

Lemma run_unfold h (t : itree (unitE registrar own world) unit) fuel w s :
  run fuel h t w s = run_from fuel h t w s [].
Proof. reflexivity. Qed.

Lemma run_from_RegisterPlugins h registry w s built n :
  run_from (13 + n) h (RegisterPlugins registry) w s built
  = register_each_plugin h registry plugin_class_names w s built.
Proof.
  unfold RegisterPlugins, plugin_class_names. cbn.
  repeat match goal with
  | |- context [h ?X ?e ?w] =>
      destruct (h X e w) as [? ?| |]; cbn; [|reflexivity|reflexivity]
  end.
  reflexivity.
Qed.

Lemma run_RegisterPlugins h registry w s n :
  run (13 + n) h (RegisterPlugins registry) w s
  = register_each_plugin h registry plugin_class_names w s [].
Proof. rewrite run_unfold. apply run_from_RegisterPlugins. Qed.

(** *** The loop and its traces *)

Lemma register_each_plugin_trace h registry names :
  forall w s built tr res,
    register_each_plugin h registry names w s built = (tr, res) ->
    registration_trace registry names tr (completed res).
Proof.
  induction names as [|name rest IH]; intros w s built tr res; simpl.
  - intros [= <- <-]. constructor.
  - destruct (h _ _ w) as [r w1| |]; try (intros [= <- <-]; constructor).
    destruct (h _ _ w1) as [[] w2| |]; try (intros [= <- <-]; constructor).
    destruct (register_each_plugin h registry rest w2 s (built ++ [name]))
      as [tr' res'] eqn:E.
    intros [= <- <-]. constructor. eauto.
Qed.

Lemma run_registration_trace h registry w s n tr res :
  run (13 + n) h (RegisterPlugins registry) w s = (tr, res) ->
  registration_trace registry plugin_class_names tr (completed res).
Proof.
  rewrite run_RegisterPlugins. apply register_each_plugin_trace.
Qed.

Lemma registration_trace_shape registry names tr b :
  registration_trace registry names tr b ->
  is_prefix (map (@shape registrar) tr) (script names)
  /\ (b = true -> map (@shape registrar) tr = script names).
Proof.
  induction 1 as [|name rest|name rest r|name rest r tr b _ [[more IHp] IHc]].
  - split; [exists []|]; reflexivity.
  - split; [eexists; reflexivity | discriminate].
  - split; [eexists; reflexivity | discriminate].
  - change (script (name :: rest))
      with (LookupOf name :: EntryOf (entry_symbol name) :: script rest).
    simpl. split.
    + exists more. now rewrite IHp.
    + intros Hb. now rewrite IHc.
Qed.

Lemma registration_trace_returned registry names tr b :
  registration_trace registry names tr b ->
  forallb (@returned registrar) tr = b
  /\ forallb (@returned registrar) (removelast tr) = true.
Proof.
  induction 1 as [|name rest|name rest r|name rest r tr b H [IHa IHb]]; simpl; auto.
  split; [assumption|].
  destruct tr as [|c tr']; [reflexivity|].
  simpl. simpl in IHb. exact IHb.
Qed.

Lemma registration_trace_flow registry names tr b :
  registration_trace registry names tr b ->
  forall i symbol arg ret,
    nth_error tr i = Some (Registration symbol arg ret) ->
    exists j name,
      i = S j
      /\ nth_error tr j = Some (Lookup registry name (Some arg))
      /\ symbol = entry_symbol name.
Proof.
  induction 1 as [|name rest|name rest r|name rest r tr b H IH];
    intros i symbol arg ret Hi.
  - destruct i; discriminate.
  - destruct i as [|[|i]]; discriminate.
  - destruct i as [|[|[|i]]]; try discriminate.
    injection Hi as <- <- <-. exists 0, name. auto.
  - destruct i as [|[|i]]; try discriminate.
    + injection Hi as <- <- <-. exists 0, name. auto.
    + simpl in Hi. destruct (IH _ _ _ _ Hi) as (j & name' & -> & Hj & ->).
      exists (S (S j)), name'. auto.
Qed.

Lemma registration_trace_receiver registry names tr b :
  registration_trace registry names tr b ->
  forall p name ret, In (Lookup p name ret) tr -> p = registry.
Proof.
  induction 1 as [|name rest|name rest r|name rest r tr b H IH];
    intros p nm ret Hin; simpl in Hin.
  - contradiction.
  - destruct Hin as [[= <- _ _]|[]]; reflexivity.
  - destruct Hin as [[= <- _ _]|[[=]|[]]]; reflexivity.
  - destruct Hin as [[= <- _ _]|[[=]|Hin]]; [reflexivity|eauto].
Qed.

Lemma registration_trace_looked_up registry names tr b :
  registration_trace registry names tr b ->
  is_prefix (looked_up tr) names /\ (b = true -> looked_up tr = names).
Proof.
  induction 1 as [|name rest|name rest r|name rest r tr b _ [[more IHp] IHc]]; simpl.
  - split; [exists []|]; reflexivity.
  - split; [exists rest; reflexivity | discriminate].
  - split; [exists rest; reflexivity | discriminate].
  - split.
    + exists more. now rewrite IHp.
    + intros Hb. now rewrite IHc.
Qed.

Lemma registration_trace_entered registry names tr b :
  registration_trace registry names tr b ->
  is_prefix (entered tr) (map entry_symbol names)
  /\ (b = true -> entered tr = map entry_symbol (looked_up tr)).
Proof.
  induction 1 as [|name rest|name rest r|name rest r tr b _ [[more IHp] IHc]]; simpl.
  - split; [exists []|]; reflexivity.
  - split; [eexists; reflexivity | discriminate].
  - split; [eexists; reflexivity | discriminate].
  - split.
    + exists more. now rewrite IHp.
    + intros Hb. now rewrite IHc.
Qed.

(** *** The straight-line body *)

Lemma RegisterPlugins_host_only registry :
  host_only (@RegisterPlugins registrar own world registry).
Proof.
  unfold RegisterPlugins.
  repeat (eapply host_only_call; [cbn; reflexivity | intros ?]).
  eapply host_only_ret. cbn. reflexivity.
Qed.


Lemma host_only_run_blame (t : itree (unitE registrar own world) unit) :
  host_only t ->
  forall fuel h w s built tr b,
    run_from fuel h t w s built = (tr, Failed b) ->
    exists (X : Type) (e : hostE registrar X) (w0 : world) tr0,
      tr = tr0 ++ [record e None]
      /\ ((h X e w0 = NotEntered /\ b = BySelf)
          \/ (h X e w0 = Raises
              /\ b = if through_null e then BySelf else ByHost)).
Proof.
  induction 1 as [t r Hobs | t X c k Hobs _ IH];
    intros [|fuel] h w s built tr b; simpl; try discriminate; rewrite Hobs.
  - discriminate.
  - destruct (h X c w) as [x w1| |] eqn:Hc.
    + destruct (run_from fuel h (k x) w1 s (call_site c built))
        as [tr1 res1] eqn:Hrun.
      intros [= <- ->].
      destruct (IH _ _ _ _ _ _ _ _ Hrun) as (Y & e & w0 & tr0 & -> & He).
      exists Y, e, w0, (record c (Some x) :: tr0). auto.
    + intros [= <- <-]. exists X, c, w, []. auto.
    + intros [= <- <-]. exists X, c, w, []. auto.
Qed.

Lemma register_each_plugin_fuel h registry names :
  forall w s built,
    snd (register_each_plugin h registry names w s built) <> OutOfFuel.
Proof.
  induction names as [|name rest IH]; intros w s built; simpl; [discriminate|].
  destruct (h _ _ w) as [r w1| |]; try discriminate.
  destruct (h _ _ w1) as [[] w2| |]; try discriminate.
  specialize (IH w2 s (built ++ [name])).
  destruct (register_each_plugin h registry rest w2 s (built ++ [name])).
  exact IH.
Qed.


Lemma completed_run_calls h registry w s n tr res :
  run (13 + n) h (RegisterPlugins registry) w s = (tr, res) ->
  completed res = true ->
  exists r1 r2 r3 r4 r5 r6,
    tr = [ Lookup registry "BatteryPlusWindowsPlugin" (Some r1);
           Registration "BatteryPlusWindowsPluginRegisterWithRegistrar" r1 true;
           Lookup registry "ConnectivityPlusWindowsPlugin" (Some r2);
           Registration "ConnectivityPlusWindowsPluginRegisterWithRegistrar" r2 true;
           Lookup registry "FirebaseCorePluginCApi" (Some r3);
           Registration "FirebaseCorePluginCApiRegisterWithRegistrar" r3 true;
           Lookup registry "FlutterSecureStorageWindowsPlugin" (Some r4);
           Registration "FlutterSecureStorageWindowsPluginRegisterWithRegistrar" r4 true;
           Lookup registry "FlutterWebRTCPlugin" (Some r5);
           Registration "FlutterWebRTCPluginRegisterWithRegistrar" r5 true;
           Lookup registry "PermissionHandlerWindowsPlugin" (Some r6);
           Registration "PermissionHandlerWindowsPluginRegisterWithRegistrar" r6 true ].
Proof.
  intros Hrun Hdone. apply run_registration_trace in Hrun.
  rewrite Hdone in Hrun. unfold plugin_class_names in Hrun.
  repeat match goal with
  | H : registration_trace _ (_ :: _) _ true |- _ => inversion H; subst; clear H
  | H : registration_trace _ [] _ _ |- _ => inversion H; subst; clear H
  end.
  do 6 eexists. reflexivity.
Qed.

(** *** Lists *)

Lemma is_prefix_nth_error (A : Type) (l1 l2 : list A) i x :
  is_prefix l1 l2 -> nth_error l1 i = Some x -> nth_error l2 i = Some x.
Proof.
  intros [rest ->] Hi. rewrite nth_error_app1; [assumption|].
  apply nth_error_Some. congruence.
Qed.

Lemma is_prefix_length (A : Type) (l1 l2 : list A) :
  is_prefix l1 l2 -> length l1 <= length l2.
Proof. intros [rest ->]. rewrite length_app. lia. Qed.

Lemma is_prefix_NoDup (A : Type) (l1 l2 : list A) :
  is_prefix l1 l2 -> NoDup l2 -> NoDup l1.
Proof. intros [rest ->]. apply NoDup_app_remove_r. Qed.

Lemma plugin_class_names_NoDup : NoDup plugin_class_names.
Proof.
  unfold plugin_class_names.
  repeat (constructor; [simpl; intuition discriminate|]). constructor.
Qed.

Lemma entry_symbols_NoDup : NoDup (map entry_symbol plugin_class_names).
Proof.
  unfold plugin_class_names. cbn.
  repeat (constructor; [simpl; intuition discriminate|]). constructor.
Qed.

Lemma script_plugin_class_names : script plugin_class_names = source_order.
Proof. reflexivity. Qed.

Lemma registration_trace_next registry names tr b :
  registration_trace registry names tr b ->
  forall i p name r c,
    nth_error tr i = Some (Lookup p name (Some r)) ->
    nth_error tr (S i) = Some c ->
    exists ret, c = @Registration registrar (entry_symbol name) r ret.
Proof.
  induction 1 as [|nm rest|nm rest r0|nm rest r0 tr b H IH];
    intros i p name r c Hi Hn.
  - destruct i; discriminate.
  - destruct i as [|i]; [discriminate|]. destruct i; discriminate.
  - destruct i as [|[|i]]; simpl in *.
    + injection Hi as _ <- <-. injection Hn as <-. eauto.
    + discriminate.
    + destruct i; discriminate.
  - destruct i as [|[|i]]; simpl in *.
    + injection Hi as _ <- <-. injection Hn as <-. eauto.
    + discriminate.
    + eauto.
Qed.

Lemma run_shape h registry w s n tr res :
  run (13 + n) h (RegisterPlugins registry) w s = (tr, res) ->
  is_prefix (map (@shape registrar) tr) source_order
  /\ (completed res = true -> map (@shape registrar) tr = source_order).
Proof.
  intros Hrun. pose proof (run_registration_trace _ _ _ _ _ Hrun) as Htr.
  rewrite <- script_plugin_class_names.
  exact (registration_trace_shape Htr).
Qed.

(** ** The claims *)

(** C1. In every run of [RegisterPlugins] that returns, each of the six
    included plugins (battery_plus, connectivity_plus, firebase_core,
    flutter_secure_storage_windows, flutter_webrtc,
    permission_handler_windows) has its registrar looked up on the given
    registry and its generated entry point entered exactly once, with that
    registrar: the include list and the registration calls correspond one
    to one. *)
Theorem C1_registers_every_included_plugin h registry w s n tr res :
  run (13 + n) h (RegisterPlugins registry) w s = (tr, res) ->
  completed res = true ->
  map package plugin_includes
  = [ "battery_plus"; "connectivity_plus"; "firebase_core";
      "flutter_secure_storage_windows"; "flutter_webrtc";
      "permission_handler_windows" ]
  /\ map header plugin_includes = map header_of_class (looked_up tr)
  /\ entered tr = map entry_symbol (looked_up tr)
  /\ forall name,
       In name (looked_up tr) ->
       exists r,
         In (Lookup registry name (Some r)) tr
         /\ registered_with (entry_symbol name) tr = [r].
Proof.
  intros Hrun Hdone.
  destruct (completed_run_calls _ _ _ _ _ Hrun Hdone)
    as (r1 & r2 & r3 & r4 & r5 & r6 & ->).
  repeat split.
  intros name Hin. simpl in Hin.
  repeat (destruct Hin as [<-|Hin];
          [eexists; split; [simpl; tauto | reflexivity]|]).
  contradiction.
Qed.

(** C2. Every entry point entered during a run receives, as its one
    argument, the handle returned by the lookup made just before it, and
    that lookup was made on the supplied registry under that plugin's
    name; no entry point receives anything else.  When the run returns,
    each of the six plugins has such a lookup-then-register pair. *)
Theorem C2_passes_the_looked_up_handle h registry w s n tr res :
  run (13 + n) h (RegisterPlugins registry) w s = (tr, res) ->
  (forall i symbol arg ret,
      nth_error tr i = Some (Registration symbol arg ret) ->
      exists j name,
        i = S j
        /\ nth_error tr j = Some (Lookup registry name (Some arg))
        /\ symbol = entry_symbol name)
  /\ (forall p name ret, In (Lookup p name ret) tr -> p = registry)
  /\ (completed res = true ->
      forall name,
        In name plugin_class_names ->
        exists j r,
          nth_error tr j = Some (Lookup registry name (Some r))
          /\ nth_error tr (S j) = Some (Registration (entry_symbol name) r true)).
Proof.
  intros Hrun. pose proof (run_registration_trace _ _ _ _ _ Hrun) as Htr.
  split; [|split].
  - exact (registration_trace_flow Htr).
  - exact (registration_trace_receiver Htr).
  - intros Hdone name Hin.
    destruct (completed_run_calls _ _ _ _ _ Hrun Hdone)
      as (r1 & r2 & r3 & r4 & r5 & r6 & ->).
    simpl in Hin.
    destruct Hin as [<-|[<-|[<-|[<-|[<-|[<-|[]]]]]]].
    + exists 0, r1. split; reflexivity.
    + exists 2, r2. split; reflexivity.
    + exists 4, r3. split; reflexivity.
    + exists 6, r4. split; reflexivity.
    + exists 8, r5. split; reflexivity.
    + exists 10, r6. split; reflexivity.
Qed.

(** C3. The calls of a run follow the textual order of the source:
    BatteryPlusWindowsPlugin, ConnectivityPlusWindowsPlugin,
    FirebaseCorePluginCApi, FlutterSecureStorageWindowsPlugin,
    FlutterWebRTCPlugin, PermissionHandlerWindowsPlugin, each lookup
    directly followed by its registration.  The first lookup is always
    made; a further call is made only after every earlier call has
    returned, and then it is the next one of that order; when no call
    fails, all twelve are made. *)
Theorem C3_calls_in_source_order h registry w s n tr res :
  run (13 + n) h (RegisterPlugins registry) w s = (tr, res) ->
  (exists c tr',
      tr = c :: tr' /\ shape c = LookupOf "BatteryPlusWindowsPlugin")
  /\ is_prefix (map (@shape registrar) tr) source_order
  /\ forallb (@returned registrar) (removelast tr) = true
  /\ (forallb (@returned registrar) tr = true ->
      map (@shape registrar) tr = source_order)
  /\ (completed res = true -> map (@shape registrar) tr = source_order).
Proof.
  intros Hrun. pose proof (run_registration_trace _ _ _ _ _ Hrun) as Htr.
  destruct (run_shape _ _ _ _ _ Hrun) as [Hp Hc].
  destruct (registration_trace_returned Htr) as [Hall Hret].
  split; [|split; [exact Hp|split; [exact Hret|split; [|exact Hc]]]].
  - unfold plugin_class_names in Htr. inversion Htr; subst; eauto.
  - intros Hok. apply Hc. congruence.
Qed.

(** C4. Which lookups and which entry points are called, and in what
    order, does not depend on the registry, on the host, or on any value
    a call returns: two runs agree call by call on the shape of their
    calls, and two runs in which no call fails both make the six lookups
    and enter the six entry points of the source, in its order. *)
Theorem C4_calls_do_not_depend_on_answers
    h1 h2 registry1 registry2 w1 w2 s1 s2 n1 n2 tr1 tr2 res1 res2 :
  run (13 + n1) h1 (RegisterPlugins registry1) w1 s1 = (tr1, res1) ->
  run (13 + n2) h2 (RegisterPlugins registry2) w2 s2 = (tr2, res2) ->
  (forall i c1 c2,
      nth_error tr1 i = Some c1 -> nth_error tr2 i = Some c2 ->
      shape c1 = shape c2)
  /\ (forallb (@returned registrar) tr1 = true ->
      forallb (@returned registrar) tr2 = true ->
      map (@shape registrar) tr1 = source_order
      /\ map (@shape registrar) tr2 = source_order
      /\ looked_up tr1 = looked_up tr2
      /\ entered tr1 = entered tr2)
  /\ (completed res1 = true -> completed res2 = true ->
      map (@shape registrar) tr1 = map (@shape registrar) tr2).
Proof.
  intros Hrun1 Hrun2.
  destruct (run_shape _ _ _ _ _ Hrun1) as [Hp1 Hc1].
  destruct (run_shape _ _ _ _ _ Hrun2) as [Hp2 Hc2].
  pose proof (run_registration_trace _ _ _ _ _ Hrun1) as Htr1.
  pose proof (run_registration_trace _ _ _ _ _ Hrun2) as Htr2.
  destruct (registration_trace_returned Htr1) as [Hall1 _].
  destruct (registration_trace_returned Htr2) as [Hall2 _].
  split; [|split].
  - intros i c1 c2 Hi1 Hi2.
    apply (map_nth_error (@shape registrar)) in Hi1, Hi2.
    pose proof (@is_prefix_nth_error _ _ _ _ _ Hp1 Hi1).
    pose proof (@is_prefix_nth_error _ _ _ _ _ Hp2 Hi2).
    congruence.
  - intros Hok1 Hok2.
    rewrite Hok1 in Hall1. rewrite Hok2 in Hall2.
    symmetry in Hall1, Hall2.
    destruct (registration_trace_looked_up Htr1) as [_ Hl1].
    destruct (registration_trace_looked_up Htr2) as [_ Hl2].
    destruct (registration_trace_entered Htr1) as [_ He1].
    destruct (registration_trace_entered Htr2) as [_ He2].
    repeat split; auto.
    + rewrite (Hl1 Hall1), (Hl2 Hall2). reflexivity.
    + rewrite (He1 Hall1), (He2 Hall2), (Hl1 Hall1), (Hl2 Hall2). reflexivity.
  - intros Hd1 Hd2. rewrite (Hc1 Hd1), (Hc2 Hd2). reflexivity.
Qed.

(** C5, corrected.  [RegisterPlugins] checks nothing, not even its
    argument: whatever the registry, the first lookup is attempted.  A
    run fails only at a call expression, every earlier call having
    returned.  Such a failure is the function's own exactly when it
    happens at the call site: the callee is not entered, or the lookup
    goes through a null registry.  With a non-null registry, on a
    platform where every callee is entered, every failure is produced
    inside the registry's GetRegistrarForPlugin or a plugin's
    registration routine.  A run in which every call returns does not
    fail. *)
Theorem C5_failures_with_a_valid_registry_come_from_the_host
    h registry w s n tr res :
  run (13 + n) h (RegisterPlugins registry) w s = (tr, res) ->
  (exists ret tr',
      tr = Lookup registry "BatteryPlusWindowsPlugin" ret :: tr')
  /\ (forall b,
        res = Failed b ->
        exists (X : Type) (e : hostE registrar X) (w0 : world) tr0,
          tr = tr0 ++ [record e None]
          /\ forallb (@returned registrar) tr0 = true
          /\ ((h X e w0 = NotEntered /\ b = BySelf)
              \/ (h X e w0 = Raises
                  /\ b = if through_null e then BySelf else ByHost)))
  /\ (registry <> nullptr ->
      enters_every_call h ->
      forall b,
        res = Failed b ->
        b = ByHost
        /\ exists (X : Type) (e : hostE registrar X) (w0 : world) tr0,
             h X e w0 = Raises
             /\ tr = tr0 ++ [record e None]
             /\ forallb (@returned registrar) tr0 = true)
  /\ (forallb (@returned registrar) tr = true -> completed res = true).
Proof.
  intros Hrun. pose proof (run_registration_trace _ _ _ _ _ Hrun) as Htr.
  destruct (registration_trace_returned Htr) as [Hall Hinit].
  pose proof (RegisterPlugins_host_only registry) as Hho.
  assert (Hblame : forall b,
             res = Failed b ->
             exists (X : Type) (e : hostE registrar X) (w0 : world) tr0,
               tr = tr0 ++ [record e None]
               /\ forallb (@returned registrar) tr0 = true
               /\ ((h X e w0 = NotEntered /\ b = BySelf)
                   \/ (h X e w0 = Raises
                       /\ b = if through_null e then BySelf else ByHost))).
  { intros b ->. rewrite run_unfold in Hrun.
    destruct (host_only_run_blame Hho _ _ _ _ _ Hrun)
      as (X & e & w0 & tr0 & -> & He).
    exists X, e, w0, tr0. rewrite removelast_last in Hinit. auto. }
  split; [|split; [exact Hblame|split]].
  - unfold plugin_class_names in Htr. inversion Htr; subst; eauto.
  - intros Hnonnull Henters b Hb.
    destruct (Hblame b Hb) as (X & e & w0 & tr0 & -> & Hret & [[He _]|[He ->]]).
    + destruct (Henters X e w0 He).
    + assert (Hnull : through_null e = false).
      { destruct e as [p name|f a]; [|reflexivity]. simpl.
        assert (p = registry) as ->.
        { apply (registration_trace_receiver Htr) with (name := name) (ret := None).
          apply in_or_app. right. left. reflexivity. }
        apply Z.eqb_neq. exact Hnonnull. }
      rewrite Hnull. split; [reflexivity|]. exists X, e, w0, tr0. auto.
  - intros Hret. congruence.
Qed.

(** C6. [RegisterPlugins] terminates against every host: thirteen steps
    always suffice and more change nothing, at most twelve calls are
    made, and when every external call returns the run completes after
    exactly six registrar lookups and six registration calls. *)
Theorem C6_terminates_after_twelve_calls h registry w s n tr res :
  run (13 + n) h (RegisterPlugins registry) w s = (tr, res) ->
  res <> OutOfFuel
  /\ run 13 h (RegisterPlugins registry) w s = (tr, res)
  /\ length tr <= 12
  /\ (forallb (@returned registrar) tr = true ->
      completed res = true
      /\ length (looked_up tr) = 6
      /\ length (entered tr) = 6
      /\ length tr = 12).
Proof.
  intros Hrun. pose proof (run_registration_trace _ _ _ _ _ Hrun) as Htr.
  destruct (registration_trace_returned Htr) as [Hall _].
  destruct (run_shape _ _ _ _ _ Hrun) as [Hp _].
  split; [|split; [|split]].
  - rewrite run_RegisterPlugins in Hrun.
    pose proof (register_each_plugin_fuel h registry plugin_class_names w s []) as Hf.
    rewrite Hrun in Hf. exact Hf.
  - rewrite <- Hrun. rewrite run_RegisterPlugins.
    exact (run_RegisterPlugins h registry w s 0).
  - apply is_prefix_length in Hp. rewrite length_map in Hp. exact Hp.
  - intros Hret. rewrite Hret in Hall. symmetry in Hall.
    destruct (completed_run_calls _ _ _ _ _ Hrun Hall)
      as (r1 & r2 & r3 & r4 & r5 & r6 & ->).
    repeat split. exact Hall.
Qed.


(** C8. In every lookup-and-register pair of a run, the entry point
    entered is the one named after the plugin name that was looked up
    (the name followed by RegisterWithRegistrar) and it receives the
    registrar of that lookup; a registration is never made without the
    lookup under its own plugin's name just before it. *)
Theorem C8_registrar_goes_to_its_own_plugin h registry w s n tr res :
  run (13 + n) h (RegisterPlugins registry) w s = (tr, res) ->
  (forall i p name r c,
      nth_error tr i = Some (Lookup p name (Some r)) ->
      nth_error tr (S i) = Some c ->
      exists ret, c = Registration (name ++ "RegisterWithRegistrar")%string r ret)
  /\ (forall i symbol arg ret,
        nth_error tr (S i) = Some (Registration symbol arg ret) ->
        exists p name,
          nth_error tr i = Some (Lookup p name (Some arg))
          /\ symbol = (name ++ "RegisterWithRegistrar")%string)
  /\ (forall symbol arg ret, nth_error tr 0 <> Some (Registration symbol arg ret)).
Proof.
  intros Hrun. pose proof (run_registration_trace _ _ _ _ _ Hrun) as Htr.
  split; [|split].
  - exact (registration_trace_next Htr).
  - intros i symbol arg ret Hi.
    destruct (registration_trace_flow Htr _ Hi) as (j & name & [= <-] & Hj & ->).
    exists registry, name. auto.
  - intros symbol arg ret Hi.
    destruct (registration_trace_flow Htr _ Hi) as (j & name & Hij & _).
    discriminate.
Qed.

(** C9. No plugin is registered twice: within one run the names handed
    to GetRegistrarForPlugin are pairwise distinct and so are the entry
    points entered; when the run returns there are six of each, and each
    of the six entry points was entered exactly once. *)
Theorem C9_no_plugin_registered_twice h registry w s n tr res :
  run (13 + n) h (RegisterPlugins registry) w s = (tr, res) ->
  NoDup (looked_up tr)
  /\ NoDup (entered tr)
  /\ (completed res = true ->
      length (looked_up tr) = 6
      /\ length (entered tr) = 6
      /\ forall symbol,
           In symbol (map entry_symbol plugin_class_names) ->
           length (registered_with symbol tr) = 1).
Proof.
  intros Hrun. pose proof (run_registration_trace _ _ _ _ _ Hrun) as Htr.
  destruct (registration_trace_looked_up Htr) as [Hl _].
  destruct (registration_trace_entered Htr) as [He _].
  split; [|split].
  - exact (is_prefix_NoDup Hl plugin_class_names_NoDup).
  - exact (is_prefix_NoDup He entry_symbols_NoDup).
  - intros Hdone.
    destruct (completed_run_calls _ _ _ _ _ Hrun Hdone)
      as (r1 & r2 & r3 & r4 & r5 & r6 & ->).
    repeat split.
    intros symbol Hin. cbn in Hin.
    destruct Hin as [<-|[<-|[<-|[<-|[<-|[<-|[]]]]]]]; reflexivity.
Qed.

(** C10. [RegisterPlugins] does not guard against a null registry: given
    nullptr, the very first thing a run does is the lookup of
    BatteryPlusWindowsPlugin through the null receiver, every lookup of
    the run goes through it, and on a host where a call through a null
    receiver faults the run stops there, before any registration. *)
Theorem C10_null_registry_reaches_first_lookup h w s n tr res :
  run (13 + n) h (RegisterPlugins nullptr) w s = (tr, res) ->
  (exists ret tr',
      tr = Lookup nullptr "BatteryPlusWindowsPlugin" ret :: tr')
  /\ (forall p name ret, In (Lookup p name ret) tr -> p = nullptr)
  /\ (faults_on_null h ->
      tr = [Lookup nullptr "BatteryPlusWindowsPlugin" None]
      /\ res = Failed BySelf
      /\ entered tr = []).
Proof.
  intros Hrun. pose proof (run_registration_trace _ _ _ _ _ Hrun) as Htr.
  split; [|split].
  - unfold plugin_class_names in Htr. inversion Htr; subst; eauto.
  - exact (registration_trace_receiver Htr).
  - intros Hnull. rewrite run_RegisterPlugins in Hrun.
    unfold plugin_class_names in Hrun. simpl in Hrun.
    rewrite Hnull in Hrun. injection Hrun as <- <-. auto.
Qed.

End Properties.

(** ** The claims at concrete hosts *)

Lemma counting_host_faults_on_null : faults_on_null counting_host.
Proof. intros name w. reflexivity. Defined.


Lemma C1_witness :
  run (13 + 0) counting_host (RegisterPlugins 7%Z) (0, 5) tt
  = (fst sample_run, snd sample_run)
  /\ completed (snd sample_run) = true
  /\ map header plugin_includes = map header_of_class (looked_up (fst sample_run))
  /\ entered (fst sample_run) = map entry_symbol (looked_up (fst sample_run))
  /\ forall name,
       In name (looked_up (fst sample_run)) ->
       exists r,
         In (Lookup 7%Z name (Some r)) (fst sample_run)
         /\ registered_with (entry_symbol name) (fst sample_run) = [r].
Proof.
  split; [reflexivity|]. split; [reflexivity|].
  exact (proj2 (@C1_registers_every_included_plugin Z unit sample_world
                  counting_host 7%Z (0, 5) tt 0
                  (fst sample_run) (snd sample_run) eq_refl eq_refl)).
Defined.

Lemma C2_witness :
  run (13 + 0) counting_host (RegisterPlugins 7%Z) (0, 5) tt
  = (fst sample_run, snd sample_run)
  /\ nth_error (fst sample_run) 3
     = Some (Registration "ConnectivityPlusWindowsPluginRegisterWithRegistrar" 36%Z true)
  /\ exists j name,
       3 = S j
       /\ nth_error (fst sample_run) j = Some (Lookup 7%Z name (Some 36%Z))
       /\ "ConnectivityPlusWindowsPluginRegisterWithRegistrar" = entry_symbol name.
Proof.
  split; [reflexivity|]. split; [reflexivity|].
  exact (proj1 (@C2_passes_the_looked_up_handle Z unit sample_world
                  counting_host 7%Z (0, 5) tt 0
                  (fst sample_run) (snd sample_run) eq_refl)
           3 _ _ _ eq_refl).
Defined.

Lemma C3_witness :
  run (13 + 0) counting_host (RegisterPlugins 7%Z) (0, 5) tt
  = (fst sample_run, snd sample_run)
  /\ forallb (@returned Z) (fst sample_run) = true
  /\ completed (snd sample_run) = true
  /\ map (@shape Z) (fst sample_run) = source_order
  /\ (exists c tr',
        fst sample_run = c :: tr'
        /\ shape c = LookupOf "BatteryPlusWindowsPlugin")
  /\ is_prefix (map (@shape Z) (fst sample_run)) source_order
  /\ forallb (@returned Z) (removelast (fst sample_run)) = true.
Proof.
  split; [reflexivity|]. split; [reflexivity|]. split; [reflexivity|].
  destruct (@C3_calls_in_source_order Z unit sample_world
              counting_host 7%Z (0, 5) tt 0
              (fst sample_run) (snd sample_run) eq_refl)
    as (Hfirst & Hprefix & Hinit & Hall & Hdone).
  split; [exact (Hall eq_refl)|].
  split; [exact Hfirst|]. split; [exact Hprefix|exact Hinit].
Defined.

Lemma C4_witness :
  run (13 + 0) counting_host (RegisterPlugins 7%Z) (0, 5) tt
  = (fst sample_run, snd sample_run)
  /\ run (13 + 7) constant_host (RegisterPlugins 1000%Z) (3, 9) tt
     = (fst constant_run, snd constant_run)
  /\ forallb (@returned Z) (fst sample_run) = true
  /\ forallb (@returned Z) (fst constant_run) = true
  /\ completed (snd sample_run) = true
  /\ completed (snd constant_run) = true
  /\ (forall i c1 c2,
        nth_error (fst sample_run) i = Some c1 ->
        nth_error (fst constant_run) i = Some c2 ->
        shape c1 = shape c2)
  /\ (map (@shape Z) (fst sample_run) = source_order
      /\ map (@shape Z) (fst constant_run) = source_order
      /\ looked_up (fst sample_run) = looked_up (fst constant_run)
      /\ entered (fst sample_run) = entered (fst constant_run))
  /\ map (@shape Z) (fst sample_run) = map (@shape Z) (fst constant_run).
Proof.
  split; [reflexivity|]. split; [reflexivity|]. split; [reflexivity|].
  split; [reflexivity|]. split; [reflexivity|]. split; [reflexivity|].
  destruct (@C4_calls_do_not_depend_on_answers Z unit sample_world
              counting_host constant_host 7%Z 1000%Z (0, 5) (3, 9) tt tt 0 7
              (fst sample_run) (fst constant_run)
              (snd sample_run) (snd constant_run) eq_refl eq_refl)
    as (Hpos & Hall & Hdone).
  split; [exact Hpos|].
  split; [exact (Hall eq_refl eq_refl)|exact (Hdone eq_refl eq_refl)].
Defined.

Lemma webrtc_throws_host_enters_every_call :
  enters_every_call webrtc_throws_host.
Proof.
  intros X e w. destruct e as [p name|f a]; simpl.
  - destruct (Z.eqb p nullptr); discriminate.
  - destruct (String.eqb f "FlutterWebRTCPluginRegisterWithRegistrar");
      discriminate.
Defined.

Lemma C5_witness :
  run (13 + 0) webrtc_throws_host (RegisterPlugins 7%Z) (0, 5) tt
  = (fst throwing_run, snd throwing_run)
  /\ 7%Z <> nullptr
  /\ enters_every_call webrtc_throws_host
  /\ snd throwing_run = Failed ByHost
  /\ (exists ret tr',
        fst throwing_run
        = Lookup 7%Z "BatteryPlusWindowsPlugin" ret :: tr')
  /\ exists (X : Type) (e : hostE Z X) (w0 : sample_world) tr0,
       @webrtc_throws_host X e w0 = Raises
       /\ fst throwing_run = tr0 ++ [record e None]
       /\ forallb (@returned Z) tr0 = true.
Proof.
  assert (Hnonnull : 7%Z <> nullptr) by discriminate.
  split; [reflexivity|]. split; [exact Hnonnull|].
  split; [exact webrtc_throws_host_enters_every_call|].
  split; [reflexivity|].
  destruct (@C5_failures_with_a_valid_registry_come_from_the_host
              Z unit sample_world webrtc_throws_host 7%Z (0, 5) tt 0
              (fst throwing_run) (snd throwing_run) eq_refl)
    as (Hfirst & _ & Hvalid & _).
  split; [exact Hfirst|].
  exact (proj2 (Hvalid Hnonnull webrtc_throws_host_enters_every_call
                  ByHost eq_refl)).
Defined.

(** Against C5 in its general form (every failure is the host's): with a
    null registry, on a host where a call through null faults, the run
    fails at the function's own dereference, no function of the registry
    or of a plugin having been entered. *)
Lemma C5_counterexample :
  ~ (forall registry tr res b,
        run 13 counting_host (RegisterPlugins registry) (0, 5) tt = (tr, res) ->
        res = Failed b ->
        b = ByHost).
Proof.
  intros Hclaim.
  specialize (Hclaim nullptr _ _ BySelf eq_refl eq_refl). discriminate.
Qed.

Lemma C6_witness :
  run (13 + 7) constant_host (RegisterPlugins 1000%Z) (3, 9) tt
  = (fst constant_run, snd constant_run)
  /\ forallb (@returned Z) (fst constant_run) = true
  /\ snd constant_run <> OutOfFuel
  /\ run 13 constant_host (RegisterPlugins 1000%Z) (3, 9) tt
     = (fst constant_run, snd constant_run)
  /\ length (fst constant_run) <= 12
  /\ completed (snd constant_run) = true
  /\ length (looked_up (fst constant_run)) = 6
  /\ length (entered (fst constant_run)) = 6
  /\ length (fst constant_run) = 12.
Proof.
  split; [reflexivity|]. split; [reflexivity|].
  destruct (@C6_terminates_after_twelve_calls Z unit sample_world
              constant_host 1000%Z (3, 9) tt 7
              (fst constant_run) (snd constant_run) eq_refl)
    as (Hfuel & Hsame & Hlen & Hall).
  split; [exact Hfuel|]. split; [exact Hsame|]. split; [exact Hlen|].
  exact (Hall eq_refl).
Defined.



Lemma C8_witness :
  run (13 + 0) counting_host (RegisterPlugins 7%Z) (0, 5) tt
  = (fst sample_run, snd sample_run)
  /\ nth_error (fst sample_run) 8
     = Some (Lookup 7%Z "FlutterWebRTCPlugin" (Some 26%Z))
  /\ nth_error (fst sample_run) 9
     = Some (Registration "FlutterWebRTCPluginRegisterWithRegistrar" 26%Z true)
  /\ exists ret,
       Registration "FlutterWebRTCPluginRegisterWithRegistrar" 26%Z true
       = Registration ("FlutterWebRTCPlugin" ++ "RegisterWithRegistrar")%string 26%Z ret.
Proof.
  split; [reflexivity|]. split; [reflexivity|]. split; [reflexivity|].
  exact (proj1 (@C8_registrar_goes_to_its_own_plugin Z unit sample_world
                  counting_host 7%Z (0, 5) tt 0
                  (fst sample_run) (snd sample_run) eq_refl)
           8 _ _ _ _ eq_refl eq_refl).
Defined.

Lemma C9_witness :
  run (13 + 0) counting_host (RegisterPlugins 7%Z) (0, 5) tt
  = (fst sample_run, snd sample_run)
  /\ completed (snd sample_run) = true
  /\ NoDup (looked_up (fst sample_run))
  /\ NoDup (entered (fst sample_run))
  /\ length (looked_up (fst sample_run)) = 6
  /\ length (entered (fst sample_run)) = 6
  /\ forall symbol,
       In symbol (map entry_symbol plugin_class_names) ->
       length (registered_with symbol (fst sample_run)) = 1.
Proof.
  split; [reflexivity|]. split; [reflexivity|].
  destruct (@C9_no_plugin_registered_twice Z unit sample_world
              counting_host 7%Z (0, 5) tt 0
              (fst sample_run) (snd sample_run) eq_refl)
    as (Hnames & Hentries & Hdone).
  split; [exact Hnames|]. split; [exact Hentries|]. exact (Hdone eq_refl).
Defined.

Lemma C10_witness :
  run (13 + 0) counting_host (RegisterPlugins nullptr) (0, 5) tt
  = (fst null_run, snd null_run)
  /\ faults_on_null counting_host
  /\ fst null_run = [Lookup nullptr "BatteryPlusWindowsPlugin" None]
  /\ snd null_run = Failed BySelf
  /\ entered (fst null_run) = [].
Proof.
  split; [reflexivity|]. split; [exact counting_host_faults_on_null|].
  exact (proj2 (proj2 (@C10_null_registry_reaches_first_lookup Z unit sample_world
                         counting_host (0, 5) tt 0
                         (fst null_run) (snd null_run) eq_refl))
           counting_host_faults_on_null).
Defined.

(** ** Sequencing, repeated calls and interrupted runs *)

Section Further.

Variables registrar own world : Type.
Implicit Types (h : host registrar world) (registry : PluginRegistryPtr)
  (w : world) (s : own) (tr : list (call registrar)) (res : result own world)
  (k : itree (unitE registrar own world) unit).

Lemma run_from_observe h (t1 t2 : itree (unitE registrar own world) unit) :
  observe t1 = observe t2 ->
  forall fuel w s built,
    run_from fuel h t1 w s built = run_from fuel h t2 w s built.
Proof.
  intros Hobs [|fuel] w s built; simpl; [reflexivity|]. now rewrite Hobs.
Qed.

Lemma run_RegisterPlugins_then h registry w s f k :
  run (12 + f) h (RegisterPlugins registry;; k) w s
  = match register_each_plugin h registry plugin_class_names w s [] with
    | (tr1, Done w1 s1 built1) =>
        let (tr2, res2) := run_from f h k w1 s1 built1 in (tr1 ++ tr2, res2)
    | (tr1, res1) => (tr1, res1)
    end.
Proof.
  rewrite run_unfold.
  unfold RegisterPlugins, plugin_class_names. cbn.
  repeat match goal with
  | |- context [h ?X ?e ?w] =>
      destruct (h X e w) as [? ?| |]; cbn; [|reflexivity|reflexivity]
  end.
  match goal with
  | |- context [run_from f h ?t ?w0 s ?b] =>
      rewrite (@run_from_observe h t k eq_refl f w0 s b)
  end.
  destruct (run_from f h k _ s _) as [tr2 res2]. reflexivity.
Qed.

Lemma registration_trace_interrupted registry names tr b :
  registration_trace registry names tr b ->
  b = false ->
  exists j,
    j < length names
    /\ looked_up tr = firstn (S j) names
    /\ @registered_entries registrar tr = firstn j (map entry_symbol names).
Proof.
  induction 1 as [|name rest|name rest r|name rest r tr b _ IH]; intros Hb.
  - discriminate.
  - exists 0. simpl. repeat split. lia.
  - exists 0. simpl. repeat split. lia.
  - destruct (IH Hb) as (j & Hj & Hl & He).
    exists (S j). split; [simpl; lia|].
    split.
    + change (looked_up (Lookup registry name (Some r)
                :: Registration (entry_symbol name) r true :: tr))
        with (name :: looked_up tr).
      rewrite Hl. reflexivity.
    + change (registered_entries (Lookup registry name (Some r)
                :: Registration (entry_symbol name) r true :: tr))
        with (entry_symbol name :: registered_entries tr).
      rewrite He. reflexivity.
Qed.

Lemma registration_trace_handle_used registry names tr b :
  registration_trace registry names tr b ->
  forall i p name r,
    nth_error tr i = Some (Lookup p name (Some r)) ->
    exists ret,
      nth_error tr (S i) = Some (@Registration registrar (entry_symbol name) r ret).
Proof.
  induction 1 as [|nm rest|nm rest r0|nm rest r0 tr b _ IH];
    intros i p name r Hi.
  - destruct i; discriminate.
  - destruct i as [|i]; [discriminate|]. destruct i; discriminate.
  - destruct i as [|[|i]]; simpl in *.
    + injection Hi as _ <- <-. eauto.
    + discriminate.
    + destruct i; discriminate.
  - destruct i as [|[|i]]; simpl in *.
    + injection Hi as _ <- <-. eauto.
    + discriminate.
    + eauto.
Qed.

(** X2. No guard against a second call.  Calling [RegisterPlugins] twice
    in a row on the same registry repeats everything: when both calls
    return, the twelve calls were made twice over in source order and
    every plugin's entry point was entered exactly twice. *)
Theorem X2_second_call_registers_everything_again h registry w s n tr res :
  run (25 + n) h (RegisterPlugins registry;; RegisterPlugins registry) w s
  = (tr, res) ->
  completed res = true ->
  map (@shape registrar) tr = source_order ++ source_order
  /\ forall symbol,
       In symbol (map entry_symbol plugin_class_names) ->
       length (registered_with symbol tr) = 2.
Proof.
  change (25 + n) with (12 + (13 + n)).
  rewrite run_RegisterPlugins_then.
  destruct (register_each_plugin h registry plugin_class_names w s [])
    as [tr1 res1] eqn:Hfirst.
  rewrite <- (run_RegisterPlugins h registry w s 0) in Hfirst.
  destruct res1 as [w1 s1 built1|b|]; try (intros [= <- <-]; discriminate).
  rewrite run_from_RegisterPlugins.
  destruct (register_each_plugin h registry plugin_class_names w1 s1 built1)
    as [tr2 res2] eqn:Hsecond.
  intros [= <- <-] Hdone.
  destruct (completed_run_calls _ _ _ _ _ Hfirst eq_refl)
    as (a1 & a2 & a3 & a4 & a5 & a6 & ->).
  apply register_each_plugin_trace in Hsecond. rewrite Hdone in Hsecond.
  unfold plugin_class_names in Hsecond.
  repeat match goal with
  | H : registration_trace _ (_ :: _) _ true |- _ => inversion H; subst; clear H
  | H : registration_trace _ [] _ _ |- _ => inversion H; subst; clear H
  end.
  split; [reflexivity|].
  intros symbol Hin. cbn in Hin.
  destruct Hin as [<-|[<-|[<-|[<-|[<-|[<-|[]]]]]]]; reflexivity.
Qed.

(** X3. Interrupted runs.  When a call does not return, the run stops at
    some plugin: the plugins looked up are the first ones of the source
    order up to and including that plugin, the entry points that were
    entered and returned are exactly those of the plugins before it, and
    nothing after it is attempted. *)
Theorem X3_interrupted_run_registers_a_strict_prefix h registry w s n tr res :
  run (13 + n) h (RegisterPlugins registry) w s = (tr, res) ->
  completed res = false ->
  exists j,
    j < 6
    /\ looked_up tr = firstn (S j) plugin_class_names
    /\ registered_entries tr = firstn j (map entry_symbol plugin_class_names).
Proof.
  intros Hrun Hcut.
  pose proof (run_registration_trace _ _ _ _ _ Hrun) as Htr.
  exact (registration_trace_interrupted Htr Hcut).
Qed.

(** X4. No registrar is requested and then dropped: every lookup that
    returns a handle is followed, as the very next call of the run, by
    the call of that plugin's entry point with that handle. *)
Theorem X4_every_looked_up_handle_is_passed_on h registry w s n tr res :
  run (13 + n) h (RegisterPlugins registry) w s = (tr, res) ->
  forall i p name r,
    nth_error tr i = Some (Lookup p name (Some r)) ->
    exists ret,
      nth_error tr (S i)
      = Some (Registration (name ++ "RegisterWithRegistrar")%string r ret).
Proof.
  intros Hrun.
  pose proof (run_registration_trace _ _ _ _ _ Hrun) as Htr.
  exact (registration_trace_handle_used Htr).
Qed.

End Further.

(** ** The further properties at concrete hosts *)

Lemma X2_witness :
  run (25 + 0) counting_host
    (RegisterPlugins 7%Z;; RegisterPlugins 7%Z) (0, 5) tt
  = (fst twice_run, snd twice_run)
  /\ completed (snd twice_run) = true
  /\ map (@shape Z) (fst twice_run) = source_order ++ source_order
  /\ forall symbol,
       In symbol (map entry_symbol plugin_class_names) ->
       length (registered_with symbol (fst twice_run)) = 2.
Proof.
  split; [reflexivity|]. split; [reflexivity|].
  exact (@X2_second_call_registers_everything_again
           Z unit sample_world counting_host 7%Z (0, 5) tt 0
           (fst twice_run) (snd twice_run) eq_refl eq_refl).
Defined.

Lemma X3_witness :
  run (13 + 0) webrtc_throws_host (RegisterPlugins 7%Z) (0, 5) tt
  = (fst throwing_run, snd throwing_run)
  /\ completed (snd throwing_run) = false
  /\ exists j,
       j < 6
       /\ looked_up (fst throwing_run) = firstn (S j) plugin_class_names
       /\ registered_entries (fst throwing_run)
          = firstn j (map entry_symbol plugin_class_names).
Proof.
  split; [reflexivity|]. split; [reflexivity|].
  exact (@X3_interrupted_run_registers_a_strict_prefix
           Z unit sample_world webrtc_throws_host 7%Z (0, 5) tt 0
           (fst throwing_run) (snd throwing_run) eq_refl eq_refl).
Defined.

Lemma X4_witness :
  run (13 + 0) webrtc_throws_host (RegisterPlugins 7%Z) (0, 5) tt
  = (fst throwing_run, snd throwing_run)
  /\ nth_error (fst throwing_run) 8
     = Some (Lookup 7%Z "FlutterWebRTCPlugin" (Some 26%Z))
  /\ exists ret,
       nth_error (fst throwing_run) 9
       = Some (Registration
                 ("FlutterWebRTCPlugin" ++ "RegisterWithRegistrar")%string
                 26%Z ret).
Proof.
  split; [reflexivity|]. split; [reflexivity|].
  exact (@X4_every_looked_up_handle_is_passed_on
           Z unit sample_world webrtc_throws_host 7%Z (0, 5) tt 0
           (fst throwing_run) (snd throwing_run) eq_refl
           8 _ _ _ eq_refl).
Defined.
